(** * AutoPylot: the command-line orchestrator ([AutoPylot/cli.py])

    A shallow embedding of [cli.py]: the file walker, the collection of the
    project-wide import set, the standard-library classifier and the
    orchestrator [install_missing_packages], followed by the properties the
    specification states about them.

    Python sets are [gset string], the mapping dictionary is a
    [gmap string string], lists are lists; a Python [str] is the string of
    the bytes of its UTF-8 encoding.  The interpreter's surroundings
    (file system, [sys.path], the package manager) are gathered in a record
    [Env]; what a run changes (console, installer invocations, the set of
    importable modules) is the state [World], threaded explicitly. *)

From Stdlib Require Import Ascii.
From stdpp Require Import gmap strings list pretty.

(** ** Python string and path primitives used by [cli.py] *)

Module Py.

(** [s.endswith(suffix)] *)
Fixpoint endswith (s suffix : string) : bool :=
  if String.eqb s suffix then true
  else match s with
       | EmptyString => false
       | String _ s' => endswith s' suffix
       end.

(** [s.startswith(prefix)] *)
Definition startswith (s pre : string) : bool := String.prefix pre s.

(** Lowercasing of the letters [A] to [Z]; every other byte is kept. *)
Definition ascii_lower (c : Ascii.ascii) : Ascii.ascii :=
  let n := Ascii.N_of_ascii c in
  if (65 <=? n)%N && (n <=? 90)%N then Ascii.ascii_of_N (n + 32) else c.

(** What [s.lower()] gives for a text of ASCII characters only.  On other
    text Python follows the Unicode case tables, which this function does
    not: the run takes [str.lower] from the environment ([str_lower] below),
    and this function only serves to build sample environments whose names
    are ASCII. *)
Fixpoint ascii_lowercase (s : string) : string :=
  match s with
  | EmptyString => EmptyString
  | String c s' => String (ascii_lower c) (ascii_lowercase s')
  end.

(** [x in l] for a list of strings. *)
Definition mem (x : string) (l : list string) : bool :=
  existsb (String.eqb x) l.

(** [posixpath.join(a, b)] *)
Definition os_path_join (a b : string) : string :=
  if startswith b "/" then b
  else if String.eqb a "" || endswith a "/" then a +:+ b
  else a +:+ "/" +:+ b.

(** [posixpath.basename(p)]: what follows the last ["/"] of [p]. *)
Fixpoint after_last_sep (p cur : string) : string :=
  match p with
  | EmptyString => cur
  | String c p' =>
      if Ascii.eqb c "/"%char then after_last_sep p' p' else after_last_sep p' cur
  end.

Definition os_path_basename (p : string) : string := after_last_sep p p.

End Py.

(** ** The environment of a run and the state it changes *)

(** What the interpreter finds around it.  [str_lower] is Python's
    [str.lower], which lowercases by the Unicode case tables.  [scan_imports]
    and [load_mappings] are the functions [cli.py] imports from [.core]; they
    are taken as they come.  [pip] is the package manager: for a package
    name, [None] when the installation fails and [Some ms] when it succeeds
    and makes the modules [ms] importable; [pip_report] is what the
    installer prints for a package. *)
Record Env := {
  os_walk : string → list (string * list string * list string);
  os_path_abspath : string → string;
  os_path_exists : string → bool;
  str_lower : string → string;
  sys_builtin_module_names : list string;
  sys_path : list string;
  scan_imports : string → string + gset string;
  load_mappings : gmap string string;
  pip : string → option (gset string);
  pip_report : string → list string
}.

(** The console, the installer invocations so far (oldest first) and the
    modules an import probe resolves. *)
Record World := {
  stdout : list string;
  pip_calls : list string;
  importable : gset string
}.

Definition print (line : string) (w : World) : World :=
  {| stdout := stdout w ++ [line];
     pip_calls := pip_calls w;
     importable := importable w |}.

(** Modelled from the spec: [is_module_available] of [core.py], which is not
    among the sources (section 4.4: whether the name currently resolves to an
    importable module in the running environment; it never raises). *)
Definition is_module_available (module_name : string) (w : World) : bool :=
  bool_decide (module_name ∈ importable w).

(** Modelled from the spec: [install_package] of [core.py], which is not
    among the sources (section 4.6: invokes the package manager on the
    package name; a failure is caught and reported, and does not stop the
    caller). *)
Definition install_package (env : Env) (package_name : string) (w : World)
  : World :=
  {| stdout := stdout w ++ pip_report env package_name;
     pip_calls := pip_calls w ++ [package_name];
     importable := match pip env package_name with
                   | Some ms => importable w ∪ ms
                   | None => importable w
                   end |}.

(** ** [find_python_files] *)

Definition python_files_of (entry : string * list string * list string)
  : list string :=
  let '(root, _, files) := entry in
  Py.os_path_join root <$> filter (λ file, Py.endswith file ".py" = true) files.

Definition find_python_files (env : Env) (directory : string) : list string :=
  concat (python_files_of <$> os_walk env directory).

(** ** [collect_all_imports] *)

Definition scan_step (env : Env) (st : gset string * World)
    (file_path : string) : gset string * World :=
  match scan_imports env file_path with
  | inr imports => (st.1 ∪ imports, st.2)
  | inl e =>
      (st.1, print ("[AutoPylot] Error scanning " +:+ file_path +:+ ": " +:+ e) st.2)
  end.

Definition collect_all_imports (env : Env) (directory : string) (w : World)
  : gset string * World :=
  let python_files := find_python_files env directory in
  let w := print ("[AutoPylot] Scanning " +:+ pretty (length python_files)
                  +:+ " Python files for imports...") w in
  foldl (scan_step env) (∅, w) python_files.

(** ** [is_stdlib_module] *)

Definition stdlib_modules : list string :=
  [ "os"; "sys"; "re"; "math"; "random"; "datetime"; "time"; "json"; "pickle";
    "collections"; "functools"; "itertools"; "typing"; "pathlib"; "io"; "argparse";
    "logging"; "threading"; "multiprocessing"; "subprocess"; "tempfile"; "shutil";
    "glob"; "fnmatch"; "socket"; "email"; "mimetypes"; "base64"; "hashlib"; "hmac";
    "uuid"; "unittest"; "ast"; "inspect"; "importlib"; "signal"; "asyncio"; "csv";
    "xml"; "html"; "urllib"; "http"; "ftplib"; "ssl"; "zlib"; "zipfile"; "tarfile";
    "platform"; "traceback"; "gc"; "operator"; "contextlib"; "copy"; "struct";
    "configparser"; "warnings"; "statistics"; "decimal"; "fractions"; "enum"; "array";
    "bisect"; "heapq"; "queue"; "weakref"; "abc"; "calendar"; "tkinter"; "turtle" ].

(** A search-path entry the loop skips. *)
Definition third_party_dir (path : string) : bool :=
  Py.endswith path "site-packages" || Py.endswith path "dist-packages".

(** One turn of the loop over [sys.path]: does it return [True]? *)
Definition found_on (env : Env) (module_name path : string) : bool :=
  if third_party_dir path then false
  else os_path_exists env (Py.os_path_join path module_name)
       || os_path_exists env (Py.os_path_join path (module_name +:+ ".py")).

Definition is_stdlib_module (env : Env) (module_name : string) : bool :=
  if Py.mem module_name (sys_builtin_module_names env) then true
  else if existsb (found_on env module_name) (sys_path env) then true
  else Py.mem module_name stdlib_modules.

(** ** [install_missing_packages] *)

Definition own_modules : list string := ["autopylot"; "AutoPylot"; "core"; "cli"].

Definition internal_modules (env : Env) (directory : string) : list string :=
  let project_name := Py.os_path_basename (os_path_abspath env directory) in
  own_modules ++ [str_lower env project_name].

(** [mappings.get(module_name, module_name)] *)
Definition package_of (mappings : gmap string string) (module_name : string)
  : string :=
  default module_name (mappings !! module_name).

(** The body of the loop that fills [missing_packages]. *)
Definition missing_step (env : Env) (directory : string)
    (mappings : gmap string string) (w : World)
    (missing_packages : list (string * string)) (module_name : string)
  : list (string * string) :=
  if Py.mem module_name (internal_modules env directory)
     || is_stdlib_module env module_name
  then missing_packages
  else if negb (is_module_available module_name w)
       then missing_packages ++ [(module_name, package_of mappings module_name)]
       else missing_packages.

(** The loop [for module_name in all_imports].  Python fixes no order for the
    iteration over a set; here it is the order of [elements]. *)
Definition find_missing (env : Env) (directory : string)
    (mappings : gmap string string) (all_imports : gset string) (w : World)
  : list (string * string) :=
  foldl (missing_step env directory mappings w) [] (elements all_imports).

Definition install_all (env : Env) (missing_packages : list (string * string))
    (w : World) : World :=
  foldl (λ w pr, install_package env pr.2 w) w missing_packages.

Definition msg_no_imports : string := "[AutoPylot] No imports found in the project.".
Definition msg_all_installed : string :=
  "[AutoPylot] All packages are already installed! ✅".
Definition msg_complete : string := "[AutoPylot] Package installation complete! ✅".

Definition install_missing_packages (env : Env) (directory : string) (w : World)
  : World :=
  let mappings := load_mappings env in
  let '(all_imports, w) := collect_all_imports env directory w in
  if decide (all_imports = ∅) then print msg_no_imports w
  else
    let w := print ("[AutoPylot] Found " +:+ pretty (size all_imports)
                    +:+ " unique imports.") w in
    let missing_packages := find_missing env directory mappings all_imports w in
    match missing_packages with
    | [] => print msg_all_installed w
    | _ :: _ =>
        let w := print ("[AutoPylot] Found " +:+ pretty (length missing_packages)
                        +:+ " missing packages to install.") w in
        let w := install_all env missing_packages w in
        print msg_complete w
    end.

(** ** The import scanner *)

Module Scanner.

(** The statements of a parsed source file, as far as imports go:
    [import a.b, c], [from a.b import x, y], and anything else. *)
Inductive stmt :=
| Import (modules : list string)
| ImportFrom (module : string) (names : list string)
| Other.

(** The first component of a dotted module path. *)
Fixpoint top_level (dotted : string) : string :=
  match dotted with
  | EmptyString => EmptyString
  | String c rest =>
      if Ascii.eqb c "."%char then EmptyString else String c (top_level rest)
  end.

Definition imports_of_stmt (s : stmt) : gset string :=
  match s with
  | Import modules => list_to_set (top_level <$> modules)
  | ImportFrom module _ => {[ top_level module ]}
  | Other => ∅
  end.

Definition imports_of (body : list stmt) : gset string :=
  ⋃ (imports_of_stmt <$> body).

(** Modelled from the spec: [scan_imports] of [core.py], which is not among
    the sources (section 4.2: one file path in, the set of import names of
    that file out; both the plain-import and the from-import form are
    recognised and only the top-level segment of a dotted path is kept; a
    file that cannot be read or parsed raises).  [parse] stands for reading
    and parsing the file: an error message, or the statements. *)
Definition scan_imports (parse : string → string + list stmt)
    (file_path : string) : string + gset string :=
  match parse file_path with
  | inl e => inl e
  | inr body => inr (imports_of body)
  end.

End Scanner.

(** ** Sample projects *)

Module Sample.
Definition tree (directory : string)
  : list (string * list string * list string) :=
  if String.eqb directory "/work/proj" then
    [ ("/work/proj", [], ["main.py"; "mymodule.py"; "README.md"]) ]
  else if String.eqb directory "/work/MyModule" then
    [ ("/work/MyModule", [], ["main.py"]) ]
  else if String.eqb directory "/work/vision" then
    [ ("/work/vision", ["sub"], ["app.py"; "notes.txt"; "broken.py"]);
      ("/work/vision/sub", [], ["util.py"]) ]
  else if String.eqb directory "/work/MyProj" then
    [ ("/work/MyProj", [], ["run.py"]) ]
  else if String.eqb directory "/work/two" then
    [ ("/work/two", [], ["a.py"]) ]
  else if String.eqb directory "/work/std" then
    [ ("/work/std", [], ["only_std.py"]) ]
  else [].

Definition main_py : list Scanner.stmt :=
  [ Scanner.Import ["requests"]; Scanner.Import ["os"]; Scanner.Import ["mymodule"] ].

Definition two_py : list Scanner.stmt :=
  [ Scanner.Import ["foo"]; Scanner.ImportFrom "bar.baz" ["qux"] ].

Definition parse (file_path : string) : string + list Scanner.stmt :=
  if String.eqb file_path "/work/proj/main.py" then inr main_py
  else if String.eqb file_path "/work/proj/mymodule.py" then inr [Scanner.Other]
  else if String.eqb file_path "/work/MyModule/main.py" then inr main_py
  else if String.eqb file_path "/work/vision/app.py" then
    inr [ Scanner.Import ["cv2"]; Scanner.ImportFrom "os.path" ["join"];
          Scanner.Import ["numpy.linalg"]; Scanner.Other ]
  else if String.eqb file_path "/work/vision/broken.py" then
    inl "invalid syntax (broken.py, line 1)"
  else if String.eqb file_path "/work/vision/sub/util.py" then
    inr [ Scanner.ImportFrom "PIL" ["Image"]; Scanner.Import ["json"; "turtle"] ]
  else if String.eqb file_path "/work/MyProj/run.py" then
    inr [ Scanner.Import ["MyProj"]; Scanner.Import ["myproj"]; Scanner.Import ["core"];
          Scanner.ImportFrom "cli" ["main"]; Scanner.Import ["autopylot"; "AutoPylot"] ]
  else if String.eqb file_path "/work/two/a.py" then inr two_py
  else if String.eqb file_path "/work/std/only_std.py" then
    inr [ Scanner.Import ["turtle"]; Scanner.Import ["sys"] ]
  else inl "[Errno 2] No such file or directory".

(** An interpreter started from the installed console script: the first
    search-path entry is the directory of the script, not the project. *)
Definition env (installer : string → option (gset string)) : Env :=
  {| os_walk := tree;
     os_path_abspath := λ d, if Py.startswith d "/" then d else "/work/" +:+ d;
     os_path_exists := λ p,
       Py.mem p [ "/usr/lib/python3.11/os.py"; "/usr/lib/python3.11/json";
                  "/usr/lib/python3.11/site-packages/numpy";
                  "/work/proj/main.py"; "/work/proj/mymodule.py" ];
     str_lower := Py.ascii_lowercase;
     sys_builtin_module_names := ["sys"; "builtins"; "time"];
     sys_path := [ "/usr/local/bin"; "/usr/lib/python3.11";
                   "/usr/lib/python3.11/site-packages" ];
     scan_imports := Scanner.scan_imports parse;
     load_mappings := {[ "cv2" := "opencv-python" ]} ∪ {[ "PIL" := "Pillow" ]};
     pip := installer;
     pip_report := λ p, ["pip install " +:+ p] |}.

(** A package index that serves [requests], [opencv-python] and [Pillow]. *)
Definition online (package_name : string) : option (gset string) :=
  if String.eqb package_name "requests" then Some {[ "requests" ]}
  else if String.eqb package_name "opencv-python" then Some {[ "cv2" ]}
  else if String.eqb package_name "Pillow" then Some {[ "PIL" ]}
  else None.

(** No network: every installation fails. *)
Definition offline (package_name : string) : option (gset string) := None.

Definition w0 : World :=
  {| stdout := []; pip_calls := [];
     importable := {[ "os"; "sys"; "json"; "numpy" ]} |}.

End Sample.

(** ** Derived notions used to state the properties *)

(** What one file adds to the project-wide set: its imports, or nothing when
    its scan raises. *)
Definition contribution (env : Env) (file_path : string) : gset string :=
  match scan_imports env file_path with
  | inr imports => imports
  | inl _ => ∅
  end.

(** The line printed for a file whose scan raises. *)
Definition scan_error_line (env : Env) (file_path : string) : option string :=
  match scan_imports env file_path with
  | inr _ => None
  | inl e => Some ("[AutoPylot] Error scanning " +:+ file_path +:+ ": " +:+ e)
  end.

(** The test of the loop over [all_imports]: the name is appended to
    [missing_packages]. *)
Definition is_missing (env : Env) (directory : string) (w : World)
    (module_name : string) : bool :=
  negb (Py.mem module_name (internal_modules env directory)
        || is_stdlib_module env module_name)
  && negb (is_module_available module_name w).

(** The value of [missing_packages] in a run started in [w]. *)
Definition missing_packages_of (env : Env) (directory : string) (w : World)
  : list (string * string) :=
  let '(all_imports, w1) := collect_all_imports env directory w in
  find_missing env directory (load_mappings env) all_imports w1.

(** ** [main] *)

(** The subcommands the parser accepts: [install] and its alias [i].  For
    any other word [parser.parse_args()] reports an invalid choice and
    leaves the program, so [main] goes no further. *)
Inductive subcommand := Install | InstallAlias.

(** The subcommand as typed, which is what [args.command] holds. *)
Definition spelling (c : subcommand) : string :=
  match c with
  | Install => "install"
  | InstallAlias => "i"
  end.

(** What [parser.parse_args()] hands to [main]: the subcommand ([None] when
    the command line has none) and the value of [--dir], ["."] by default. *)
Record Namespace := {
  command : option subcommand;
  dir : string
}.

(** [args.command in ["install", "i"]] *)
Definition is_install (args : Namespace) : bool :=
  match command args with
  | Some c => Py.mem (spelling c) ["install"; "i"]
  | None => false
  end.

(** [help] is what [parser.print_help()] prints, line by line. *)
Definition main (env : Env) (help : list string) (args : Namespace) (w : World)
  : World :=
  if is_install args then
    let directory := os_path_abspath env (dir args) in
    let w := print ("[AutoPylot] Scanning directory: " +:+ directory) w in
    install_missing_packages env directory w
  else foldl (λ w line, print line w) w help.

(** ** Changing the directory walk only *)

Definition with_walk
    (walk : string → list (string * list string * list string)) (env : Env)
  : Env :=
  {| os_walk := walk;
     os_path_abspath := os_path_abspath env;
     os_path_exists := os_path_exists env;
     str_lower := str_lower env;
     sys_builtin_module_names := sys_builtin_module_names env;
     sys_path := sys_path env;
     scan_imports := scan_imports env;
     load_mappings := load_mappings env;
     pip := pip env;
     pip_report := pip_report env |}.

(** ** A second sample: the interpreter started inside the project *)

Module SampleLocal.

(** As [Sample.env], but the search path starts with the empty entry, as
    when the tool is run with [python -m] from the project directory, and
    the project's files are seen relative to it; two import names share one
    package in the mapping table. *)
Definition env : Env :=
  {| os_walk := Sample.tree;
     os_path_abspath := λ d, if Py.startswith d "/" then d else "/work/proj/" +:+ d;
     os_path_exists := λ p,
       Py.mem p [ "/usr/lib/python3.11/os.py"; "main.py"; "mymodule.py";
                  "/usr/lib/python3.11/site-packages/numpy" ];
     str_lower := Py.ascii_lowercase;
     sys_builtin_module_names := ["sys"; "builtins"; "time"];
     sys_path := [ ""; "/usr/lib/python3.11";
                   "/usr/lib/python3.11/site-packages" ];
     scan_imports := Scanner.scan_imports Sample.parse;
     load_mappings := {[ "cv2" := "opencv-python" ]} ∪ {[ "PIL" := "opencv-python" ]};
     pip := Sample.online;
     pip_report := λ p, ["pip install " +:+ p] |}.

(** The same tree walked bottom-up, the files of a directory last to first. *)
Definition bottom_up (directory : string)
  : list (string * list string * list string) :=
  reverse ((λ entry, (entry.1.1, entry.1.2, reverse entry.2))
             <$> Sample.tree directory).

(** A directory that holds one file that does not parse and a text file. *)
Definition broken_only (directory : string)
  : list (string * list string * list string) :=
  [ ("/work/vision", [], ["broken.py"; "notes.txt"]) ].


End SampleLocal.

(** ** The classification as the specification words it *)

Module AsSpecified.

(** The path without its trailing separators. *)
Fixpoint rstrip_sep (path : string) : string :=
  match path with
  | EmptyString => EmptyString
  | String c rest =>
      let r := rstrip_sep rest in
      if Ascii.eqb c "/"%char && String.eqb r "" then EmptyString
      else String c r
  end.

(** A path that represents a third-party package directory: it names a
    [site-packages] or [dist-packages] directory, with or without a
    trailing separator. *)
Definition third_party_directory (path : string) : bool :=
  third_party_dir (rstrip_sep path).

(** The three cases of the specification, in its words: a builtin module
    name; a directory of that name, or a single-file module of that name,
    on a search path that is not a third-party package directory; a name of
    the hardcoded list.  [is_dir] tells the directories among the entries
    of the file system. *)
Definition is_stdlib (is_dir : string → bool) (env : Env) (module_name : string)
  : Prop :=
  module_name ∈ sys_builtin_module_names env
  ∨ (∃ path, path ∈ sys_path env
             ∧ third_party_directory path = false
             ∧ ((os_path_exists env (Py.os_path_join path module_name) = true
                 ∧ is_dir (Py.os_path_join path module_name) = true)
                ∨ (os_path_exists env
                     (Py.os_path_join path (module_name +:+ ".py")) = true
                   ∧ is_dir (Py.os_path_join path (module_name +:+ ".py"))
                     = false)))
  ∨ module_name ∈ stdlib_modules.

End AsSpecified.

(** ** A third sample: a virtual environment *)

Module SampleVenv.

(** The search path holds the directory of the console scripts and the
    [site-packages] directory written with a trailing separator;
    [requests] is a package directory of [site-packages], [black] a script
    (a regular file without extension) beside the interpreter. *)
Definition env : Env :=
  {| os_walk := Sample.tree;
     os_path_abspath := λ d, d;
     os_path_exists := λ p,
       Py.mem p [ "/venv/bin/black"; "/venv/bin/python";
                  "/venv/lib/python3.11/site-packages/requests" ];
     str_lower := Py.ascii_lowercase;
     sys_builtin_module_names := ["sys"; "builtins"; "time"];
     sys_path := [ "/venv/bin"; "/venv/lib/python3.11/site-packages/" ];
     scan_imports := Scanner.scan_imports Sample.parse;
     load_mappings := ∅;
     pip := Sample.online;
     pip_report := λ p, ["pip install " +:+ p] |}.

Definition is_dir (p : string) : bool :=
  Py.mem p [ "/venv/bin"; "/venv/lib/python3.11/site-packages/";
             "/venv/lib/python3.11/site-packages/requests" ].

End SampleVenv.

(** * Properties *)

(** ** Strings and paths *)

Module PyFacts.
Import Py.

Lemma mem_true (x : string) (l : list string) : mem x l = true ↔ x ∈ l.
Proof.
  unfold mem. rewrite existsb_exists. split.
  - intros (y & Hy & Heq). apply String.eqb_eq in Heq. subst.
    by apply list_elem_of_In.
  - intros Hx. exists x. split; [by apply list_elem_of_In | apply String.eqb_refl].
Qed.

Lemma mem_false (x : string) (l : list string) : mem x l = false ↔ x ∉ l.
Proof.
  rewrite <- mem_true. destruct (mem x l); split; intros; congruence.
Qed.

Lemma mem_app (x : string) (l k : list string) :
  mem x (l ++ k) = mem x l || mem x k.
Proof. unfold mem. apply existsb_app. Qed.

Lemma endswith_unfold (s suffix : string) :
  endswith s suffix =
  if String.eqb s suffix then true
  else match s with
       | EmptyString => false
       | String _ s' => endswith s' suffix
       end.
Proof. by destruct s. Qed.

Lemma endswith_spec (s suffix : string) :
  endswith s suffix = true ↔ ∃ pre, s = pre +:+ suffix.
Proof.
  induction s as [|c s IH]; rewrite endswith_unfold;
    match goal with
    | |- context [String.eqb ?a ?b] =>
        destruct (String.eqb_spec a b) as [<-|Hne]
    end;
    try (split; [intros _; by exists "" | done]).
  - split; [done |].
    intros ([|c' pre] & Hpre); simpl in Hpre; [done | discriminate].
  - rewrite IH. split.
    + intros (pre & ->). by exists (String c pre).
    + intros ([|c' pre] & Hpre); simpl in Hpre; [done |].
      injection Hpre as -> ->. by exists pre.
Qed.

End PyFacts.

(** ** The loops of [cli.py], one at a time *)

Section Loops.
Context (env : Env).

(** *** The scan of the files *)

Lemma scan_step_eq (S : gset string) (w : World) (f : string) :
  scan_step env (S, w) f =
  (S ∪ contribution env f,
   match scan_error_line env f with Some l => print l w | None => w end).
Proof.
  unfold scan_step, contribution, scan_error_line; simpl.
  destruct (scan_imports env f); [| done].
  by rewrite (right_id_L ∅ (∪)).
Qed.

Lemma scan_fold_imports (files : list string) (S : gset string) (w : World) :
  (foldl (scan_step env) (S, w) files).1
  = S ∪ ⋃ (contribution env <$> files).
Proof.
  revert S w. induction files as [|f files IH]; intros S w.
  - simpl. by rewrite (right_id_L ∅ (∪)).
  - cbn [foldl]. rewrite scan_step_eq, IH. simpl.
    by rewrite (assoc_L (∪)).
Qed.

Lemma scan_fold_world (files : list string) (S : gset string) (w : World) :
  let w' := (foldl (scan_step env) (S, w) files).2 in
  stdout w' = stdout w ++ omap (scan_error_line env) files
  ∧ pip_calls w' = pip_calls w
  ∧ importable w' = importable w.
Proof.
  revert S w. induction files as [|f files IH]; intros S w.
  - simpl. by rewrite app_nil_r.
  - cbn [foldl]. rewrite scan_step_eq.
    destruct (IH (S ∪ contribution env f)
                (match scan_error_line env f with
                 | Some l => print l w | None => w end)) as (Ho & Hp & Hi).
    cbn zeta. rewrite Ho, Hp, Hi. cbn [omap list_omap].
    destruct (scan_error_line env f); simpl; [| done].
    by rewrite <- app_assoc.
Qed.

Lemma collect_imports (directory : string) (w : World) :
  (collect_all_imports env directory w).1
  = ⋃ (contribution env <$> find_python_files env directory).
Proof.
  unfold collect_all_imports. cbn zeta.
  by rewrite scan_fold_imports, (left_id_L ∅ (∪)).
Qed.

Lemma collect_world (directory : string) (w : World) :
  let w' := (collect_all_imports env directory w).2 in
  pip_calls w' = pip_calls w ∧ importable w' = importable w.
Proof.
  unfold collect_all_imports. cbn zeta.
  match goal with
  | |- context [foldl _ (?S, ?v) ?fs] =>
      destruct (scan_fold_world fs S v) as (_ & -> & ->)
  end.
  done.
Qed.

Lemma collect_stdout (directory : string) (w : World) :
  stdout (collect_all_imports env directory w).2
  = stdout w
    ++ ["[AutoPylot] Scanning "
        +:+ pretty (length (find_python_files env directory))
        +:+ " Python files for imports..."]
    ++ omap (scan_error_line env) (find_python_files env directory).
Proof.
  unfold collect_all_imports. cbn zeta.
  match goal with
  | |- context [foldl _ (?S, ?v) ?fs] =>
      destruct (scan_fold_world fs S v) as (-> & _ & _)
  end.
  simpl. by rewrite <- app_assoc.
Qed.

(** *** The selection of the missing packages *)

Lemma missing_step_eq (directory : string) (mp : gmap string string)
    (w : World) (acc : list (string * string)) (m : string) :
  missing_step env directory mp w acc m
  = if is_missing env directory w m then acc ++ [(m, package_of mp m)] else acc.
Proof.
  unfold missing_step, is_missing.
  destruct (_ || _); [done |]. simpl. by destruct (is_module_available m w).
Qed.

Lemma missing_fold (directory : string) (mp : gmap string string) (w : World)
    (names : list string) (acc : list (string * string)) :
  foldl (missing_step env directory mp w) acc names
  = acc ++ ((λ m, (m, package_of mp m))
              <$> filter (λ m, is_missing env directory w m = true) names).
Proof.
  revert acc. induction names as [|m names IH]; intros acc.
  - simpl. by rewrite app_nil_r.
  - cbn [foldl]. rewrite IH, missing_step_eq.
    destruct (is_missing env directory w m) eqn:Hm.
    + rewrite filter_cons_True by done.
      rewrite fmap_cons, <- app_assoc. done.
    + rewrite filter_cons_False; [done | congruence].
Qed.

Lemma find_missing_filter (directory : string) (mp : gmap string string)
    (S : gset string) (w : World) :
  find_missing env directory mp S w
  = (λ m, (m, package_of mp m))
      <$> filter (λ m, is_missing env directory w m = true) (elements S).
Proof. unfold find_missing. by rewrite missing_fold. Qed.

Lemma elem_of_find_missing (directory : string) (mp : gmap string string)
    (S : gset string) (w : World) (m p : string) :
  (m, p) ∈ find_missing env directory mp S w
  ↔ m ∈ S ∧ is_missing env directory w m = true ∧ p = package_of mp m.
Proof.
  rewrite find_missing_filter, list_elem_of_fmap. split.
  - intros (m' & [= -> ->] & Hin).
    apply list_elem_of_filter in Hin as [Hm Hin].
    by apply elem_of_elements in Hin.
  - intros (Hin & Hm & ->). exists m. split; [done |].
    apply list_elem_of_filter. split; [done |]. by apply elem_of_elements.
Qed.

Lemma find_missing_names (directory : string) (mp : gmap string string)
    (S : gset string) (w : World) :
  (find_missing env directory mp S w).*1
  = filter (λ m, is_missing env directory w m = true) (elements S).
Proof.
  rewrite find_missing_filter, <- list_fmap_compose.
  apply list_fmap_id.
Qed.

Lemma find_missing_NoDup (directory : string) (mp : gmap string string)
    (S : gset string) (w : World) :
  NoDup (find_missing env directory mp S w).*1.
Proof.
  rewrite find_missing_names. apply NoDup_filter, NoDup_elements.
Qed.

Lemma is_missing_world (directory : string) (w w' : World) (m : string) :
  importable w = importable w' →
  is_missing env directory w m = is_missing env directory w' m.
Proof.
  intros Hi. unfold is_missing, is_module_available. by rewrite Hi.
Qed.

Lemma find_missing_world (directory : string) (mp : gmap string string)
    (S : gset string) (w w' : World) :
  importable w = importable w' →
  find_missing env directory mp S w = find_missing env directory mp S w'.
Proof.
  intros Hi. unfold find_missing. generalize (@nil (string * string)).
  induction (elements S) as [|m names IH]; intros acc; [done |].
  cbn [foldl]. rewrite !missing_step_eq, (is_missing_world _ w w' m Hi).
  apply IH.
Qed.

(** *** The installation loop *)

Lemma install_all_calls (l : list (string * string)) (w : World) :
  pip_calls (install_all env l w) = pip_calls w ++ l.*2.
Proof.
  unfold install_all. revert w.
  induction l as [|pr l IH]; intros w; simpl.
  - by rewrite app_nil_r.
  - rewrite IH. simpl. by rewrite <- app_assoc.
Qed.


End Loops.

(** ** One run of the orchestrator *)

Section Run.
Context (env : Env) (directory : string) (w : World).

Lemma missing_packages_of_eq :
  missing_packages_of env directory w
  = find_missing env directory (load_mappings env)
      (collect_all_imports env directory w).1 w.
Proof.
  unfold missing_packages_of.
  pose proof (collect_world env directory w) as [_ Hi].
  destruct (collect_all_imports env directory w) as [S w1]; simpl in *.
  by apply find_missing_world.
Qed.

Lemma missing_packages_of_no_imports :
  (collect_all_imports env directory w).1 = ∅ →
  missing_packages_of env directory w = [].
Proof.
  intros HS. rewrite missing_packages_of_eq, HS.
  unfold find_missing. by rewrite elements_empty.
Qed.

(** The run, branch by branch. *)
Lemma run_unfold :
  let S := (collect_all_imports env directory w).1 in
  let w1 := (collect_all_imports env directory w).2 in
  let missing := missing_packages_of env directory w in
  let w2 := print ("[AutoPylot] Found " +:+ pretty (size S)
                   +:+ " unique imports.") w1 in
  install_missing_packages env directory w
  = if decide (S = ∅) then print msg_no_imports w1
    else match missing with
         | [] => print msg_all_installed w2
         | _ :: _ =>
             print msg_complete
               (install_all env missing
                  (print ("[AutoPylot] Found " +:+ pretty (length missing)
                          +:+ " missing packages to install.") w2))
         end.
Proof.
  cbn zeta. unfold install_missing_packages, missing_packages_of.
  destruct (collect_all_imports env directory w) as [S w1]; simpl.
  destruct (decide (S = ∅)); [done |].
  by rewrite (find_missing_world env directory (load_mappings env) S
                (print ("[AutoPylot] Found " +:+ pretty (size S)
                        +:+ " unique imports.") w1) w1).
Qed.

Lemma run_calls :
  pip_calls (install_missing_packages env directory w)
  = pip_calls w ++ (missing_packages_of env directory w).*2.
Proof.
  rewrite run_unfold. cbn zeta.
  pose proof (collect_world env directory w) as [Hp _]. cbn zeta in Hp.
  destruct (decide _) as [HS|HS].
  - rewrite (missing_packages_of_no_imports HS). simpl.
    by rewrite app_nil_r.
  - destruct (missing_packages_of env directory w) as [|pr l] eqn:E; simpl.
    + by rewrite app_nil_r.
    + rewrite install_all_calls. simpl. by rewrite Hp, <- app_assoc.
Qed.

Lemma run_last_line :
  last (stdout (install_missing_packages env directory w))
  = Some (if decide ((collect_all_imports env directory w).1 = ∅)
          then msg_no_imports
          else match missing_packages_of env directory w with
               | [] => msg_all_installed
               | _ :: _ => msg_complete
               end).
Proof.
  rewrite run_unfold. cbn zeta.
  destruct (decide _); [apply last_snoc |].
  destruct (missing_packages_of env directory w); apply last_snoc.
Qed.


Lemma elem_of_missing_packages_of (m p : string) :
  (m, p) ∈ missing_packages_of env directory w
  ↔ m ∈ (collect_all_imports env directory w).1
    ∧ is_missing env directory w m = true
    ∧ p = package_of (load_mappings env) m.
Proof. rewrite missing_packages_of_eq. apply elem_of_find_missing. Qed.

End Run.

(** ** The classifier and the internal names *)

Lemma third_party_dir_spec (path : string) :
  third_party_dir path = true
  ↔ (∃ pre, path = pre +:+ "site-packages")
    ∨ (∃ pre, path = pre +:+ "dist-packages").
Proof.
  unfold third_party_dir.
  by rewrite orb_true_iff, !PyFacts.endswith_spec.
Qed.

Lemma found_on_true (env : Env) (module_name path : string) :
  found_on env module_name path = true
  ↔ third_party_dir path = false
    ∧ (os_path_exists env (Py.os_path_join path module_name) = true
       ∨ os_path_exists env (Py.os_path_join path (module_name +:+ ".py"))
         = true).
Proof.
  unfold found_on. destruct (third_party_dir path).
  - split; [done | by intros [? _]].
  - rewrite orb_true_iff. tauto.
Qed.

Lemma listed_is_stdlib (env : Env) (module_name : string) :
  Py.mem module_name stdlib_modules = true →
  is_stdlib_module env module_name = true.
Proof.
  intros Hm. unfold is_stdlib_module.
  destruct (Py.mem _ (sys_builtin_module_names env)); [done |].
  by destruct (existsb _ _).
Qed.

Lemma internal_modules_spec (env : Env) (directory m : string) :
  Py.mem m (internal_modules env directory) = true
  ↔ m ∈ own_modules
    ∨ m = str_lower env (Py.os_path_basename (os_path_abspath env directory)).
Proof.
  unfold internal_modules. cbn zeta.
  rewrite PyFacts.mem_app, orb_true_iff, !PyFacts.mem_true.
  by rewrite list_elem_of_singleton.
Qed.

Lemma is_missing_true (env : Env) (directory : string) (w : World) (m : string) :
  is_missing env directory w m = true
  ↔ Py.mem m (internal_modules env directory) = false
    ∧ is_stdlib_module env m = false
    ∧ is_module_available m w = false.
Proof.
  unfold is_missing.
  rewrite andb_true_iff, !negb_true_iff, orb_false_iff. tauto.
Qed.

Lemma not_missing_name (env : Env) (directory : string) (w : World) (m : string) :
  is_missing env directory w m = false →
  m ∉ (missing_packages_of env directory w).*1.
Proof.
  intros Hm Hin. apply list_elem_of_fmap in Hin as ([m' p] & -> & Hin).
  apply elem_of_missing_packages_of in Hin as (_ & Hm' & _).
  simpl in Hm. congruence.
Qed.

Lemma not_installed_name (env : Env) (directory : string) (w : World)
    (m : string) :
  m ∉ (missing_packages_of env directory w).*1 →
  (∀ n, package_of (load_mappings env) n = m → n = m) →
  m ∉ (missing_packages_of env directory w).*2.
Proof.
  intros Hno Hinj Hin. apply Hno.
  apply list_elem_of_fmap in Hin as ([n p] & -> & Hin).
  pose proof Hin as Hin'.
  apply elem_of_missing_packages_of in Hin' as (_ & _ & Hp). simpl in *.
  rewrite (Hinj n) in Hin by done.
  apply list_elem_of_fmap. by exists (p, p).
Qed.

Lemma third_party_dir_false (path : string) :
  third_party_dir path = false
  ↔ (∀ pre, path ≠ pre +:+ "site-packages")
    ∧ (∀ pre, path ≠ pre +:+ "dist-packages").
Proof.
  destruct (third_party_dir path) eqn:Htp.
  - apply third_party_dir_spec in Htp. split; [done |].
    intros [Hs Hd]. destruct Htp as [[pre ->] | [pre ->]];
      [by destruct (Hs pre) | by destruct (Hd pre)].
  - split; [| done]. intros _.
    split; intros pre ->;
      (assert (third_party_dir (pre +:+ "site-packages") = true
               ∧ third_party_dir (pre +:+ "dist-packages") = true) as [H1 H2];
       [split; apply third_party_dir_spec; [left | right]; by exists pre |]);
      congruence.
Qed.

Lemma is_stdlib_module_cases (env : Env) (module_name : string) :
  is_stdlib_module env module_name = true
  ↔ module_name ∈ sys_builtin_module_names env
    ∨ (∃ path, path ∈ sys_path env ∧ found_on env module_name path = true)
    ∨ module_name ∈ stdlib_modules.
Proof.
  unfold is_stdlib_module.
  rewrite <- !PyFacts.mem_true.
  destruct (Py.mem module_name (sys_builtin_module_names env));
    [split; auto |].
  destruct (existsb _ _) eqn:Hex.
  - apply existsb_exists in Hex as (path & Hin & Hfound).
    split; [| done]. intros _. right; left. exists path.
    by rewrite list_elem_of_In.
  - split; [by auto |]. intros [? | [(path & Hin & Hfound) | ?]]; try done.
    assert (existsb (found_on env module_name) (sys_path env) = true) as Hc;
      [| congruence].
    apply existsb_exists. exists path. by rewrite <- list_elem_of_In.
Qed.

(** C3, as amended: [is_stdlib_module] answers [True] exactly when the name
    is a builtin module name, or [os.path.exists] holds of [name] or of
    [name.py] joined to a search-path entry whose text does not end in
    [site-packages] or in [dist-packages], or the name is in the hardcoded
    list; in every other case it answers [False].  The existence test takes
    an entry of any kind, and the skip looks at the end of the text of the
    search-path entry only. *)
Theorem is_stdlib_module_spec (env : Env) (module_name : string) :
  is_stdlib_module env module_name = true
  ↔ module_name ∈ sys_builtin_module_names env
    ∨ (∃ path, path ∈ sys_path env
               ∧ (∀ pre, path ≠ pre +:+ "site-packages")
               ∧ (∀ pre, path ≠ pre +:+ "dist-packages")
               ∧ (os_path_exists env (Py.os_path_join path module_name) = true
                  ∨ os_path_exists env
                      (Py.os_path_join path (module_name +:+ ".py")) = true))
    ∨ module_name ∈ stdlib_modules.
Proof.
  rewrite is_stdlib_module_cases.
  assert ((∃ path, path ∈ sys_path env ∧ found_on env module_name path = true)
          ↔ ∃ path, path ∈ sys_path env
               ∧ (∀ pre, path ≠ pre +:+ "site-packages")
               ∧ (∀ pre, path ≠ pre +:+ "dist-packages")
               ∧ (os_path_exists env (Py.os_path_join path module_name) = true
                  ∨ os_path_exists env
                      (Py.os_path_join path (module_name +:+ ".py")) = true))
    as ->; [| done].
  split; intros (path & Hin & H); exists path; (split; [done |]).
  - apply found_on_true in H as [Htp Hex].
    apply third_party_dir_false in Htp as [Hs Hd]. done.
  - destruct H as (Hs & Hd & Hex). apply found_on_true.
    split; [by apply third_party_dir_false | done].
Qed.

(** C3, as stated, fails twice in a virtual environment whose search path
    holds the directory of the scripts and the [site-packages] directory
    written with a trailing separator.  [requests] exists only as a package
    of that third-party directory, and [black] only as a regular file
    without extension among the scripts; neither is a builtin or in the
    hardcoded list, so none of the three stated cases holds, yet both are
    classified as standard library. *)
Lemma classifier_counterexample :
  sys_path SampleVenv.env
  = ["/venv/bin"; "/venv/lib/python3.11/site-packages/"]
  ∧ AsSpecified.third_party_directory "/venv/lib/python3.11/site-packages/"
    = true
  ∧ SampleVenv.is_dir "/venv/bin/black" = false
  ∧ is_stdlib_module SampleVenv.env "requests" = true
  ∧ ¬ AsSpecified.is_stdlib SampleVenv.is_dir SampleVenv.env "requests"
  ∧ is_stdlib_module SampleVenv.env "black" = true
  ∧ ¬ AsSpecified.is_stdlib SampleVenv.is_dir SampleVenv.env "black".
Proof.
  split; [reflexivity |]. split; [reflexivity |]. split; [reflexivity |].
  assert (∀ m, Py.mem m ["sys"; "builtins"; "time"] = false →
               Py.mem m stdlib_modules = false →
               (∀ path, path ∈ sys_path SampleVenv.env →
                        AsSpecified.third_party_directory path = false →
                        ¬ ((os_path_exists SampleVenv.env
                              (Py.os_path_join path m) = true
                            ∧ SampleVenv.is_dir (Py.os_path_join path m) = true)
                           ∨ (os_path_exists SampleVenv.env
                                (Py.os_path_join path (m +:+ ".py")) = true
                              ∧ SampleVenv.is_dir
                                  (Py.os_path_join path (m +:+ ".py"))
                                = false))) →
               ¬ AsSpecified.is_stdlib SampleVenv.is_dir SampleVenv.env m)
    as Hnot.
  { intros m Hb Hl Hp [Hin | [(path & Hin & Htp & Hex) | Hin]].
    - apply PyFacts.mem_true in Hin.
      change (Py.mem m ["sys"; "builtins"; "time"] = true) in Hin. congruence.
    - by apply (Hp path).
    - apply PyFacts.mem_true in Hin. congruence. }
  split; [reflexivity |]. split.
  - apply Hnot; [reflexivity | reflexivity |].
    intros path Hin Htp.
    change (path ∈ ["/venv/bin"; "/venv/lib/python3.11/site-packages/"]) in Hin.
    apply elem_of_cons in Hin as [-> | Hin];
      [| apply list_elem_of_singleton in Hin as ->; discriminate Htp].
    intros [[He _] | [He _]]; discriminate He.
  - split; [reflexivity |].
    apply Hnot; [reflexivity | reflexivity |].
    intros path Hin Htp.
    change (path ∈ ["/venv/bin"; "/venv/lib/python3.11/site-packages/"]) in Hin.
    apply elem_of_cons in Hin as [-> | Hin];
      [| apply list_elem_of_singleton in Hin as ->; discriminate Htp].
    intros [[_ Hd] | [He _]]; [discriminate Hd | discriminate He].
Qed.

(** ** The missing-package set *)

(** C7: every pair of [missing_packages] has an import name that was found
    in the project, is not an internal name, is not classified as standard
    library and does not resolve in the environment the run started in; the
    installer is invoked for the package names of these pairs and for
    nothing else. *)
Theorem missing_within_difference (env : Env) (directory : string) (w : World)
    (m p : string) :
  (m, p) ∈ missing_packages_of env directory w →
  m ∈ (collect_all_imports env directory w).1
  ∧ Py.mem m (internal_modules env directory) = false
  ∧ is_stdlib_module env m = false
  ∧ is_module_available m w = false
  ∧ (m ∉ importable w)
  ∧ pip_calls (install_missing_packages env directory w)
    = pip_calls w ++ (missing_packages_of env directory w).*2.
Proof.
  intros Hin.
  apply elem_of_missing_packages_of in Hin as (HS & Hm & _).
  apply is_missing_true in Hm as (Hint & Hstd & Hav).
  repeat split; try done; [| apply run_calls].
  unfold is_module_available in Hav. by apply bool_decide_eq_false in Hav.
Qed.

Lemma missing_within_difference_witness :
  ("cv2", "opencv-python")
    ∈ missing_packages_of (Sample.env Sample.offline) "/work/vision" Sample.w0
  ∧ "cv2" ∈ (collect_all_imports (Sample.env Sample.offline) "/work/vision"
               Sample.w0).1
  ∧ is_stdlib_module (Sample.env Sample.offline) "cv2" = false
  ∧ "cv2" ∉ importable Sample.w0.
Proof.
  assert (("cv2", "opencv-python")
            ∈ missing_packages_of (Sample.env Sample.offline) "/work/vision"
                Sample.w0) as Hin
    by (vm_compute; apply list_elem_of_here).
  split; [exact Hin |].
  destruct (missing_within_difference _ _ _ _ _ Hin) as (HS & _ & Hstd & _ & Hav & _).
  exact (conj HS (conj Hstd Hav)).
Defined.

(** C4: a name of the hardcoded standard-library list is classified as
    standard library whatever the environment holds, even when it does not
    resolve there, so it is never the import name of a missing pair, and no
    installer invocation is made for it: the invocations of a run are the
    package names of the missing pairs, and the name is not among them
    unless the mapping table sends another import name to it. *)
Theorem stdlib_listed_never_missing (env : Env) (directory : string) (w : World)
    (m : string) :
  Py.mem m stdlib_modules = true →
  is_stdlib_module env m = true
  ∧ (m ∉ (missing_packages_of env directory w).*1)
  ∧ pip_calls (install_missing_packages env directory w)
    = pip_calls w ++ (missing_packages_of env directory w).*2
  ∧ ((∀ n, package_of (load_mappings env) n = m → n = m) →
     m ∉ (missing_packages_of env directory w).*2).
Proof.
  intros Hm. pose proof (listed_is_stdlib env m Hm) as Hstd.
  assert (m ∉ (missing_packages_of env directory w).*1) as Hno.
  { apply not_missing_name. unfold is_missing. rewrite Hstd.
    by rewrite orb_true_r. }
  split; [done |]. split; [done |]. split; [apply run_calls |].
  by apply not_installed_name.
Qed.

Lemma stdlib_listed_never_missing_witness :
  Py.mem "turtle" stdlib_modules = true
  ∧ ("turtle" ∉ importable Sample.w0)
  ∧ "turtle" ∈ (collect_all_imports (Sample.env Sample.online) "/work/std"
                  Sample.w0).1
  ∧ "turtle" ∉ (missing_packages_of (Sample.env Sample.online) "/work/std"
                  Sample.w0).*1.
Proof.
  split; [reflexivity |].
  split; [vm_compute; discriminate |].
  split; [vm_compute; reflexivity |].
  exact (proj1 (proj2 (stdlib_listed_never_missing
                         (Sample.env Sample.online) "/work/std" Sample.w0
                         "turtle" eq_refl))).
Defined.

(** ** The name mapper *)

Lemma missing_pair_of_name (env : Env) (directory : string) (w : World)
    (m : string) :
  m ∈ (missing_packages_of env directory w).*1 →
  (m, package_of (load_mappings env) m) ∈ missing_packages_of env directory w.
Proof.
  intros Hin. apply list_elem_of_fmap in Hin as ([m' p] & -> & Hin).
  pose proof Hin as Hin'.
  apply elem_of_missing_packages_of in Hin' as (_ & _ & ->). done.
Qed.

(** C5: the package name of an import name is its entry in the mapping table
    when there is one and the import name itself otherwise, whatever the
    table holds; consequently, for a missing import name, the pair recorded
    for it carries that package name, no pair for that import name carries
    another one, and the installer invocation made for that pair is made
    with that package name: the mapped one when the table has an entry. *)
Theorem name_mapper_spec (env : Env) (directory : string) (w : World)
    (m : string) :
  (∀ p, load_mappings env !! m = Some p → package_of (load_mappings env) m = p)
  ∧ (load_mappings env !! m = None → package_of (load_mappings env) m = m)
  ∧ (m ∈ (missing_packages_of env directory w).*1 →
     (∀ q, (m, q) ∈ missing_packages_of env directory w →
           q = package_of (load_mappings env) m)
     ∧ ∃ i, missing_packages_of env directory w !! i
            = Some (m, package_of (load_mappings env) m)
            ∧ drop (length (pip_calls w))
                (pip_calls (install_missing_packages env directory w)) !! i
              = Some (package_of (load_mappings env) m)).
Proof.
  split; [intros p Hp; unfold package_of; by rewrite Hp |].
  split; [intros Hn; unfold package_of; by rewrite Hn |].
  intros Hin. split.
  - intros q Hq. apply elem_of_missing_packages_of in Hq as (_ & _ & ->). done.
  - apply missing_pair_of_name in Hin.
    apply list_elem_of_lookup in Hin as [i Hi]. exists i. split; [done |].
    rewrite run_calls, drop_app_length, list_lookup_fmap, Hi. done.
Qed.

Lemma name_mapper_spec_witness :
  (load_mappings (Sample.env Sample.online) !! "cv2" = Some "opencv-python"
   ∧ package_of (load_mappings (Sample.env Sample.online)) "cv2"
     = "opencv-python")
  ∧ (load_mappings (Sample.env Sample.online) !! "requests" = None
     ∧ package_of (load_mappings (Sample.env Sample.online)) "requests"
       = "requests")
  ∧ pip_calls (install_missing_packages (Sample.env Sample.online)
                 "/work/vision" Sample.w0)
    = ["opencv-python"; "Pillow"]
  ∧ ∃ i, missing_packages_of (Sample.env Sample.online) "/work/vision"
           Sample.w0 !! i
         = Some ("cv2", package_of (load_mappings (Sample.env Sample.online))
                          "cv2")
         ∧ drop (length (pip_calls Sample.w0))
             (pip_calls (install_missing_packages (Sample.env Sample.online)
                           "/work/vision" Sample.w0)) !! i
           = Some (package_of (load_mappings (Sample.env Sample.online))
                     "cv2").
Proof.
  destruct (name_mapper_spec (Sample.env Sample.online) "/work/vision"
              Sample.w0 "cv2") as (Hsome & _ & Hmiss).
  destruct (name_mapper_spec (Sample.env Sample.online) "/work/vision"
              Sample.w0 "requests") as (_ & Hnone & _).
  assert (load_mappings (Sample.env Sample.online) !! "cv2"
          = Some "opencv-python") as Hcv by (vm_compute; reflexivity).
  assert (load_mappings (Sample.env Sample.online) !! "requests" = None)
    as Hrq by (vm_compute; reflexivity).
  split; [exact (conj Hcv (Hsome _ Hcv)) |].
  split; [exact (conj Hrq (Hnone Hrq)) |].
  split; [vm_compute; reflexivity |].
  apply Hmiss. vm_compute. apply list_elem_of_here.
Defined.

(** ** The names of the tool itself *)

(** C10: whatever the project and the environment, the names [autopylot],
    [AutoPylot], [core] and [cli] are internal and never the import name of
    a missing pair, so no installer invocation is made for them (the
    invocations are the package names of the missing pairs, and such a name
    is not among them unless the mapping table sends another import name to
    it); any other name is internal exactly when it equals, character for
    character, the lowercased basename of the project directory, so the
    basename as it is written is not excluded when lowercasing changes
    it. *)
Theorem own_names_always_excluded (env : Env) (directory : string) (w : World)
    (m : string) :
  (m ∈ ["autopylot"; "AutoPylot"; "core"; "cli"] →
   Py.mem m (internal_modules env directory) = true
   ∧ (m ∉ (missing_packages_of env directory w).*1)
   ∧ ((∀ n, package_of (load_mappings env) n = m → n = m) →
      m ∉ (missing_packages_of env directory w).*2))
  ∧ (m ∉ ["autopylot"; "AutoPylot"; "core"; "cli"] →
     (Py.mem m (internal_modules env directory) = true
      ↔ m = str_lower env
              (Py.os_path_basename (os_path_abspath env directory)))
     ∧ (m = Py.os_path_basename (os_path_abspath env directory) →
        str_lower env m ≠ m →
        Py.mem m (internal_modules env directory) = false))
  ∧ pip_calls (install_missing_packages env directory w)
    = pip_calls w ++ (missing_packages_of env directory w).*2.
Proof.
  split; [| split; [| apply run_calls]].
  - intros Hown.
    assert (Py.mem m (internal_modules env directory) = true) as Hint
      by (apply internal_modules_spec; by left).
    assert (m ∉ (missing_packages_of env directory w).*1) as Hno
      by (apply not_missing_name; unfold is_missing; by rewrite Hint).
    split; [done |]. split; [done |]. by apply not_installed_name.
  - intros Hown.
    assert (Py.mem m (internal_modules env directory) = true
            ↔ m = str_lower env
                    (Py.os_path_basename (os_path_abspath env directory)))
      as Hiff.
    { rewrite internal_modules_spec. split; [by intros [? | ?] | by right]. }
    split; [done |]. intros Hbase Hlow.
    destruct (Py.mem m (internal_modules env directory)) eqn:Hint; [| done].
    destruct Hlow. rewrite <- Hbase in Hiff. symmetry. by apply Hiff.
Qed.

Lemma own_names_always_excluded_witness :
  ("core" ∉ (missing_packages_of (Sample.env Sample.online) "/work/MyProj"
               Sample.w0).*1)
  ∧ ("core" ∉ importable Sample.w0)
  ∧ Py.mem "myproj" (internal_modules (Sample.env Sample.online) "/work/MyProj")
    = true
  ∧ Py.mem "MyProj" (internal_modules (Sample.env Sample.online) "/work/MyProj")
    = false
  ∧ pip_calls (install_missing_packages (Sample.env Sample.online)
                 "/work/MyProj" Sample.w0) = ["MyProj"].
Proof.
  destruct (own_names_always_excluded (Sample.env Sample.online) "/work/MyProj"
              Sample.w0 "core") as (Hown & _ & _).
  destruct (own_names_always_excluded (Sample.env Sample.online) "/work/MyProj"
              Sample.w0 "MyProj") as (_ & Hother & _).
  split.
  { refine (proj1 (proj2 (Hown _))). apply PyFacts.mem_true. reflexivity. }
  split; [vm_compute; discriminate |].
  split; [reflexivity |].
  split; [| vm_compute; reflexivity].
  apply Hother;
    [apply PyFacts.mem_false; reflexivity | reflexivity
     | vm_compute; discriminate].
Defined.

(** ** The end-to-end example *)





(** ** The import scanner *)

Module ScannerFacts.
Import Scanner.

Lemma top_level_prefix (dotted : string) :
  dotted = top_level dotted
  ∨ ∃ rest, dotted = top_level dotted +:+ String "."%char rest.
Proof.
  induction dotted as [|c d IH]; simpl; [by left |].
  destruct (Ascii.eqb_spec c "."%char) as [-> | Hc].
  - right. by exists d.
  - destruct IH as [IH | [rest IH]].
    + left. by f_equal.
    + right. exists rest. exact (f_equal (String c) IH).
Qed.

Lemma top_level_no_dot (dotted pre post : string) :
  top_level dotted ≠ pre +:+ String "."%char post.
Proof.
  revert pre. induction dotted as [|c d IH]; intros pre; simpl.
  - by destruct pre.
  - destruct (Ascii.eqb_spec c "."%char) as [-> | Hc]; [by destruct pre |].
    destruct pre as [|c' pre]; intros Heq.
    + change (String c (top_level d) = String "."%char post) in Heq.
      congruence.
    + change (String c (top_level d)
              = String c' (pre +:+ String "."%char post)) in Heq.
      injection Heq as _ Heq. by apply (IH pre).
Qed.

Lemma elem_of_imports_of_stmt (s : stmt) (m : string) :
  m ∈ imports_of_stmt s
  ↔ (∃ modules dotted,
        s = Import modules ∧ dotted ∈ modules ∧ m = top_level dotted)
    ∨ (∃ module names, s = ImportFrom module names ∧ m = top_level module).
Proof.
  destruct s as [modules | module names |]; simpl.
  - rewrite elem_of_list_to_set, list_elem_of_fmap. split.
    + intros (d & -> & Hd). left. by exists modules, d.
    + intros [(ms & d & [= <-] & Hd & ->) | (? & ? & ? & _)]; [| done].
      by exists d.
  - rewrite elem_of_singleton. split.
    + intros ->. right. by exists module, names.
    + by intros [(? & ? & ? & _) | (? & ? & [= <- <-] & ->)].
  - rewrite elem_of_empty. split; [done |].
    by intros [(? & ? & ? & _) | (? & ? & ? & _)].
Qed.

Lemma elem_of_imports_of (body : list stmt) (m : string) :
  m ∈ imports_of body ↔ ∃ s, s ∈ body ∧ m ∈ imports_of_stmt s.
Proof.
  unfold imports_of. rewrite elem_of_union_list. split.
  - intros (X & HX & Hm). apply list_elem_of_fmap in HX as (s & -> & Hs).
    by exists s.
  - intros (s & Hs & Hm). exists (imports_of_stmt s). split; [| done].
    apply list_elem_of_fmap. by exists s.
Qed.

End ScannerFacts.

(** C2: the scanner keeps, for every plain import and every from-import of a
    file, the first component of the dotted module path and nothing else:
    that component holds no dot and the path is it alone or it followed by a
    dot and the rest; a file made of [import foo] and
    [from bar.baz import qux] yields exactly the names [foo] and [bar]. *)
Theorem scanner_top_level_names :
  (∀ (body : list Scanner.stmt) (m : string),
     m ∈ Scanner.imports_of body
     ↔ ∃ s, s ∈ body
            ∧ ((∃ modules dotted, s = Scanner.Import modules
                                  ∧ dotted ∈ modules
                                  ∧ m = Scanner.top_level dotted)
               ∨ (∃ module names, s = Scanner.ImportFrom module names
                                  ∧ m = Scanner.top_level module)))
  ∧ (∀ dotted : string,
       (dotted = Scanner.top_level dotted
        ∨ ∃ rest, dotted = Scanner.top_level dotted +:+ String "."%char rest)
       ∧ ∀ pre post, Scanner.top_level dotted ≠ pre +:+ String "."%char post)
  ∧ (∀ parse file_path,
       Scanner.scan_imports parse file_path
       = match parse file_path with
         | inl e => inl e
         | inr body => inr (Scanner.imports_of body)
         end)
  ∧ Sample.parse "/work/two/a.py"
    = inr [ Scanner.Import ["foo"]; Scanner.ImportFrom "bar.baz" ["qux"] ]
  ∧ Scanner.scan_imports Sample.parse "/work/two/a.py" = inr {[ "foo"; "bar" ]}.
Proof.
  split; [| split; [| split; [| split]]].
  - intros body m. rewrite ScannerFacts.elem_of_imports_of.
    split; intros (s & Hs & Hm); exists s; (split; [done |]);
      by apply ScannerFacts.elem_of_imports_of_stmt.
  - intros dotted. split.
    + apply ScannerFacts.top_level_prefix.
    + intros pre post. apply ScannerFacts.top_level_no_dot.
  - done.
  - reflexivity.
  - vm_compute. reflexivity.
Qed.

(** ** Files whose scan raises *)

Lemma elem_of_collected (env : Env) (directory : string) (w : World)
    (m : string) :
  m ∈ (collect_all_imports env directory w).1
  ↔ ∃ g imports, g ∈ find_python_files env directory
                 ∧ scan_imports env g = inr imports
                 ∧ m ∈ imports.
Proof.
  rewrite collect_imports, elem_of_union_list. split.
  - intros (X & HX & Hm). apply list_elem_of_fmap in HX as (g & -> & Hg).
    unfold contribution in Hm.
    destruct (scan_imports env g) as [e | imports] eqn:Hscan;
      [by apply elem_of_empty in Hm |].
    by exists g, imports.
  - intros (g & imports & Hg & Hscan & Hm). exists (contribution env g).
    split; [apply list_elem_of_fmap; by exists g |].
    unfold contribution. by rewrite Hscan.
Qed.

(** C6: when the scan of a file of the project raises, the collection goes
    on: the error line for that file is printed, the file adds nothing, the
    project-wide set is exactly what the files that scan contribute, and the
    run selects and installs the missing packages from that set. *)
Theorem scan_error_is_skipped (env : Env) (directory : string) (w : World)
    (f e : string) :
  f ∈ find_python_files env directory →
  scan_imports env f = inl e →
  ("[AutoPylot] Error scanning " +:+ f +:+ ": " +:+ e)
    ∈ stdout (collect_all_imports env directory w).2
  ∧ contribution env f = ∅
  ∧ (∀ m, m ∈ (collect_all_imports env directory w).1
          ↔ ∃ g imports, g ∈ find_python_files env directory
                         ∧ scan_imports env g = inr imports
                         ∧ m ∈ imports)
  ∧ (∀ g imports, g ∈ find_python_files env directory →
                  scan_imports env g = inr imports →
                  imports ⊆ (collect_all_imports env directory w).1)
  ∧ pip_calls (install_missing_packages env directory w)
    = pip_calls w
      ++ (find_missing env directory (load_mappings env)
            (collect_all_imports env directory w).1 w).*2.
Proof.
  intros Hf Hscan. split; [| split; [| split; [| split]]].
  - rewrite collect_stdout, !elem_of_app. right; right.
    apply list_elem_of_omap. exists f. split; [done |].
    unfold scan_error_line. by rewrite Hscan.
  - unfold contribution. by rewrite Hscan.
  - intros m. apply elem_of_collected.
  - intros g imports Hg Hg' m Hm. apply elem_of_collected. by exists g, imports.
  - by rewrite run_calls, missing_packages_of_eq.
Qed.

Lemma scan_error_is_skipped_witness :
  scan_imports (Sample.env Sample.offline) "/work/vision/broken.py"
  = inl "invalid syntax (broken.py, line 1)"
  ∧ "[AutoPylot] Error scanning /work/vision/broken.py: invalid syntax (broken.py, line 1)"
      ∈ stdout (collect_all_imports (Sample.env Sample.offline) "/work/vision"
                  Sample.w0).2
  ∧ elements (collect_all_imports (Sample.env Sample.offline) "/work/vision"
                Sample.w0).1
    = ["os"; "cv2"; "numpy"; "json"; "turtle"; "PIL"]
  ∧ pip_calls (install_missing_packages (Sample.env Sample.offline)
                 "/work/vision" Sample.w0)
    = ["opencv-python"; "Pillow"].
Proof.
  split; [reflexivity |].
  split; [| split; vm_compute; reflexivity].
  refine (proj1 (scan_error_is_skipped (Sample.env Sample.offline)
                   "/work/vision" Sample.w0 "/work/vision/broken.py"
                   "invalid syntax (broken.py, line 1)" _ _)).
  - vm_compute. apply list_elem_of_further, list_elem_of_here.
  - reflexivity.
Defined.

(** ** How a run ends *)

(** C8: once the missing list is computed (the import set is not empty), an
    empty list makes the run print the success line and leave without any
    installer invocation; a non-empty list makes it invoke the installer
    once for each pair, in order, with the package name of the pair, and
    print the completion line last, whatever the package manager answered.
    The pairs have distinct import names.  With an empty import set the run
    leaves earlier, after the line saying that no imports were found, and
    invokes nothing. *)
Theorem run_completion (env : Env) (directory : string) (w : World) :
  let all_imports := (collect_all_imports env directory w).1 in
  let missing_packages := missing_packages_of env directory w in
  let w' := install_missing_packages env directory w in
  NoDup missing_packages.*1
  ∧ (all_imports ≠ ∅ → missing_packages = [] →
     pip_calls w' = pip_calls w ∧ last (stdout w') = Some msg_all_installed)
  ∧ (missing_packages ≠ [] →
     pip_calls w' = pip_calls w ++ missing_packages.*2
     ∧ length (pip_calls w') = length (pip_calls w) + length missing_packages
     ∧ last (stdout w') = Some msg_complete)
  ∧ (all_imports = ∅ →
     missing_packages = []
     ∧ pip_calls w' = pip_calls w ∧ last (stdout w') = Some msg_no_imports).
Proof.
  cbn zeta. split; [| split; [| split]].
  - rewrite missing_packages_of_eq. apply find_missing_NoDup.
  - intros HS Hmiss. rewrite run_calls, run_last_line, Hmiss.
    rewrite app_nil_r. by destruct (decide _).
  - intros Hmiss. rewrite run_calls, run_last_line.
    rewrite length_app, length_fmap.
    destruct (decide _) as [HS | HS];
      [by rewrite (missing_packages_of_no_imports _ _ _ HS) in Hmiss |].
    by destruct (missing_packages_of env directory w).
  - intros HS. rewrite run_calls, run_last_line.
    rewrite (missing_packages_of_no_imports _ _ _ HS), app_nil_r.
    by destruct (decide _).
Qed.

Lemma run_completion_witness :
  missing_packages_of (Sample.env Sample.offline) "/work/vision" Sample.w0
  = [("cv2", "opencv-python"); ("PIL", "Pillow")]
  ∧ pip (Sample.env Sample.offline) "opencv-python" = None
  ∧ pip_calls (install_missing_packages (Sample.env Sample.offline)
                 "/work/vision" Sample.w0)
    = pip_calls Sample.w0 ++ ["opencv-python"; "Pillow"]
  ∧ last (stdout (install_missing_packages (Sample.env Sample.offline)
                    "/work/vision" Sample.w0))
    = Some msg_complete.
Proof.
  assert (missing_packages_of (Sample.env Sample.offline) "/work/vision"
            Sample.w0
          = [("cv2", "opencv-python"); ("PIL", "Pillow")]) as Hmiss
    by (vm_compute; reflexivity).
  split; [exact Hmiss |]. split; [reflexivity |].
  destruct (run_completion (Sample.env Sample.offline) "/work/vision" Sample.w0)
    as (_ & _ & Hne & _).
  destruct Hne as (Hcalls & _ & Hlast); [by rewrite Hmiss |].
  rewrite Hmiss in Hcalls. by split.
Defined.

(** ** Running twice *)

Lemma collect_imports_world (env : Env) (directory : string) (w w' : World) :
  (collect_all_imports env directory w).1
  = (collect_all_imports env directory w').1.
Proof. by rewrite !collect_imports. Qed.




(** * Further properties of [cli.py] *)

(** ** Paths *)

Module PathFacts.
Import Py.

Lemma append_assoc (a b c : string) : (a +:+ b) +:+ c = a +:+ (b +:+ c).
Proof.
  induction a as [|x a IH]; [done |].
  exact (f_equal (String x) IH).
Qed.

Lemma append_nil_r (a : string) : a +:+ "" = a.
Proof.
  induction a as [|x a IH]; [done |].
  exact (f_equal (String x) IH).
Qed.

Lemma endswith_refl (s : string) : endswith s s = true.
Proof. apply PyFacts.endswith_spec. by exists "". Qed.

Lemma endswith_trans (s t u : string) :
  endswith s t = true → endswith t u = true → endswith s u = true.
Proof.
  rewrite !PyFacts.endswith_spec. intros (p & ->) (q & ->).
  exists (p +:+ q). by rewrite append_assoc.
Qed.

Lemma endswith_join (a b : string) : endswith (os_path_join a b) b = true.
Proof.
  unfold os_path_join. destruct (startswith b "/"); [apply endswith_refl |].
  apply PyFacts.endswith_spec.
  destruct (_ || _); [by exists a |].
  exists (a +:+ "/"). by rewrite append_assoc.
Qed.

Lemma join_empty (b : string) : os_path_join "" b = b.
Proof. unfold os_path_join. by destruct (startswith b "/"). Qed.

Lemma after_last_sep_append (parent name cur : string) :
  after_last_sep (parent +:+ String "/"%char name) cur
  = after_last_sep name name.
Proof.
  revert cur. induction parent as [|c parent IH]; intros cur.
  - done.
  - change (after_last_sep (String c (parent +:+ String "/"%char name)) cur
            = after_last_sep name name).
    cbn [after_last_sep]. destruct (Ascii.eqb c "/"%char); apply IH.
Qed.

Lemma basename_append (parent name : string) :
  os_path_basename (parent +:+ String "/"%char name) = os_path_basename name.
Proof. apply after_last_sep_append. Qed.

Lemma snoc_inj (a b : string) (x y : Ascii.ascii) :
  a +:+ String x "" = b +:+ String y "" → x = y.
Proof.
  revert b. induction a as [|c a IH]; intros [|d b] Heq.
  - by injection Heq.
  - change (String x "" = String d (b +:+ String y "")) in Heq.
    injection Heq as _ Heq. by destruct b.
  - change (String c (a +:+ String x "") = String y "") in Heq.
    injection Heq as _ Heq. by destruct a.
  - change (String c (a +:+ String x "") = String d (b +:+ String y ""))
      in Heq.
    injection Heq as _ Heq. by apply (IH b).
Qed.

Lemma not_endswith_last (s t : string) (x y : Ascii.ascii) :
  x ≠ y → endswith (s +:+ String x "") (t +:+ String y "") = false.
Proof.
  intros Hxy. destruct (endswith _ _) eqn:He; [| done].
  apply PyFacts.endswith_spec in He as (pre & He).
  rewrite <- append_assoc in He. by apply snoc_inj in He.
Qed.

End PathFacts.

(** ** [find_python_files] *)

Lemma elem_of_concat {A : Type} (x : A) (ls : list (list A)) :
  x ∈ concat ls ↔ ∃ l, x ∈ l ∧ l ∈ ls.
Proof.
  induction ls as [|k ls IH]; simpl.
  - split; [by intros ?%elem_of_nil | by intros (? & _ & ?%elem_of_nil)].
  - rewrite elem_of_app, IH. split.
    + intros [Hx | (l & Hx & Hl)].
      * exists k. split; [done | apply list_elem_of_here].
      * exists l. split; [done | by apply list_elem_of_further].
    + intros (l & Hx & Hl). apply elem_of_cons in Hl as [-> | Hl]; [by left |].
      right. by exists l.
Qed.

Lemma elem_of_find_python_files (env : Env) (directory p : string) :
  p ∈ find_python_files env directory
  ↔ ∃ root dirs files file,
      (root, dirs, files) ∈ os_walk env directory
      ∧ file ∈ files
      ∧ Py.endswith file ".py" = true
      ∧ p = Py.os_path_join root file.
Proof.
  unfold find_python_files. rewrite elem_of_concat. split.
  - intros (l & Hp & Hl).
    apply list_elem_of_fmap in Hl as ([[root dirs] files] & -> & Hentry).
    simpl in Hp. apply list_elem_of_fmap in Hp as (file & -> & Hfile).
    apply list_elem_of_filter in Hfile as [Hpy Hfile].
    by exists root, dirs, files, file.
  - intros (root & dirs & files & file & Hentry & Hfile & Hpy & ->).
    exists (python_files_of (root, dirs, files)). split.
    + simpl. apply list_elem_of_fmap. exists file. split; [done |].
      by apply list_elem_of_filter.
    + apply list_elem_of_fmap. by exists (root, dirs, files).
Qed.

(** X1: every path [find_python_files] returns ends in [.py], whatever the
    directory tree looks like. *)
Theorem python_files_end_in_py (env : Env) (directory p : string) :
  p ∈ find_python_files env directory → Py.endswith p ".py" = true.
Proof.
  intros Hp.
  apply elem_of_find_python_files in Hp
    as (root & dirs & files & file & _ & _ & Hpy & ->).
  eapply PathFacts.endswith_trans; [apply PathFacts.endswith_join | done].
Qed.

Lemma python_files_end_in_py_witness :
  "/work/vision/sub/util.py"
    ∈ find_python_files (Sample.env Sample.online) "/work/vision"
  ∧ Py.endswith "/work/vision/sub/util.py" ".py" = true.
Proof.
  assert ("/work/vision/sub/util.py"
            ∈ find_python_files (Sample.env Sample.online) "/work/vision")
    as Hin
    by (vm_compute; apply list_elem_of_further, list_elem_of_further,
                          list_elem_of_here).
  split; [exact Hin |].
  exact (python_files_end_in_py _ _ _ Hin).
Defined.

(** X2: a file entry of a walked directory is returned, joined to the
    directory, exactly when its name ends in [.py]; names of
    sub-directories and files with another ending (the test is
    case-sensitive) are never returned, and the result has one path for each
    such entry. *)
Theorem find_python_files_spec (env : Env) (directory : string) :
  (∀ p, p ∈ find_python_files env directory
        ↔ ∃ root dirs files file,
            (root, dirs, files) ∈ os_walk env directory
            ∧ file ∈ files
            ∧ Py.endswith file ".py" = true
            ∧ p = Py.os_path_join root file)
  ∧ length (find_python_files env directory)
    = list_sum ((λ entry, length (filter (λ file, Py.endswith file ".py" = true)
                                    entry.2))
                  <$> os_walk env directory).
Proof.
  split; [intros p; apply elem_of_find_python_files |].
  unfold find_python_files.
  induction (os_walk env directory) as [|[[root dirs] files] l IH]; [done |].
  rewrite !fmap_cons. cbn [concat list_sum foldr].
  rewrite length_app, IH. f_equal.
  unfold python_files_of. by rewrite length_fmap.
Qed.

(** ** [collect_all_imports] *)

(** X3: the collection prints the line with the number of files and then, in
    the order of the files, one error line for each file whose scan raised;
    files that scan print nothing, and neither the installer nor the set of
    importable modules is touched. *)
Theorem collect_transcript (env : Env) (directory : string) (w : World) :
  let files := find_python_files env directory in
  let w' := (collect_all_imports env directory w).2 in
  stdout w'
  = stdout w
    ++ ["[AutoPylot] Scanning " +:+ pretty (length files)
        +:+ " Python files for imports..."]
    ++ omap (λ f, match scan_imports env f with
                  | inl e => Some ("[AutoPylot] Error scanning " +:+ f
                                   +:+ ": " +:+ e)
                  | inr _ => None
                  end) files
  ∧ ((∀ f, f ∈ files → ∃ imports, scan_imports env f = inr imports) →
     stdout w'
     = stdout w ++ ["[AutoPylot] Scanning " +:+ pretty (length files)
                    +:+ " Python files for imports..."])
  ∧ pip_calls w' = pip_calls w
  ∧ importable w' = importable w.
Proof.
  cbn zeta. pose proof (collect_world env directory w) as [Hp Hi].
  rewrite collect_stdout.
  assert (∀ l : list string, omap (scan_error_line env) l
               = omap (λ f, match scan_imports env f with
                            | inl e => Some ("[AutoPylot] Error scanning " +:+ f
                                             +:+ ": " +:+ e)
                            | inr _ => None
                            end) l) as Hom.
  { intros l. induction l as [|f l IH]; [done |].
    cbn [omap list_omap]. rewrite <- IH. unfold scan_error_line at 1.
    by destruct (scan_imports env f). }
  split; [by rewrite Hom |]. split; [| done].
  intros Hall. do 2 f_equal.
  induction (find_python_files env directory) as [|f l IH]; [done |].
  cbn [omap list_omap]. unfold scan_error_line at 1.
  destruct (Hall f) as [imports ->]; [apply list_elem_of_here |].
  apply IH. intros g Hg. apply Hall. by apply list_elem_of_further.
Qed.

Lemma union_list_same_elements (l k : list (gset string)) :
  (∀ X, X ∈ l ↔ X ∈ k) → ⋃ l = ⋃ k.
Proof.
  intros Hlk. apply set_eq. intros x. rewrite !elem_of_union_list.
  split; intros (X & HX & Hx); exists X; (split; [by apply Hlk | done]).
Qed.

(** X4: the project-wide import set depends only on which files are found
    and on what their scans return: two walks that find the same files, in
    any order and any number of times, give the same set, whatever the
    console showed before. *)
Theorem collect_order_irrelevant (env env' : Env) (directory directory' : string)
    (w w' : World) :
  (∀ f, scan_imports env f = scan_imports env' f) →
  (∀ f, f ∈ find_python_files env directory
        ↔ f ∈ find_python_files env' directory') →
  (collect_all_imports env directory w).1
  = (collect_all_imports env' directory' w').1.
Proof.
  intros Hscan Hfiles. rewrite !collect_imports.
  apply union_list_same_elements. intros X. rewrite !list_elem_of_fmap.
  assert (∀ f, contribution env f = contribution env' f) as Hc
    by (intros f; unfold contribution; by rewrite Hscan).
  split; intros (f & -> & Hf); exists f; (split; [done | by apply Hfiles]).
Qed.

Lemma collect_order_irrelevant_witness :
  find_python_files (Sample.env Sample.online) "/work/vision"
  = ["/work/vision/app.py"; "/work/vision/broken.py";
     "/work/vision/sub/util.py"]
  ∧ find_python_files
      (with_walk SampleLocal.bottom_up (Sample.env Sample.online))
      "/work/vision"
    = ["/work/vision/sub/util.py"; "/work/vision/broken.py";
       "/work/vision/app.py"]
  ∧ (collect_all_imports (Sample.env Sample.online) "/work/vision"
       Sample.w0).1
    = (collect_all_imports
         (with_walk SampleLocal.bottom_up (Sample.env Sample.online))
         "/work/vision" Sample.w0).1.
Proof.
  split; [reflexivity |]. split; [reflexivity |].
  apply collect_order_irrelevant; [reflexivity |].
  intros f.
  change (f ∈ ["/work/vision/app.py"; "/work/vision/broken.py";
               "/work/vision/sub/util.py"]
          ↔ f ∈ ["/work/vision/sub/util.py"; "/work/vision/broken.py";
                 "/work/vision/app.py"]).
  rewrite !elem_of_cons. tauto.
Defined.

(** ** [install_missing_packages]: what is printed *)

Lemma install_all_stdout (env : Env) (l : list (string * string)) (w : World) :
  stdout (install_all env l w) = stdout w ++ concat (pip_report env <$> l.*2).
Proof.
  unfold install_all. revert w.
  induction l as [|pr l IH]; intros w; simpl.
  - by rewrite app_nil_r.
  - rewrite IH. simpl. by rewrite <- app_assoc.
Qed.

(** X5: when no file of the project contributes an import name (there is no
    [.py] file, or every scan raises or finds no import), the run prints the
    scanning line, the error lines and the line saying that no imports were
    found, and stops there: the installer is not invoked and what is
    importable is unchanged. *)
Theorem run_without_imports (env : Env) (directory : string) (w : World) :
  (∀ f, f ∈ find_python_files env directory → contribution env f = ∅) →
  let w' := install_missing_packages env directory w in
  stdout w'
  = stdout w
    ++ ["[AutoPylot] Scanning "
        +:+ pretty (length (find_python_files env directory))
        +:+ " Python files for imports..."]
    ++ omap (scan_error_line env) (find_python_files env directory)
    ++ [msg_no_imports]
  ∧ pip_calls w' = pip_calls w
  ∧ importable w' = importable w.
Proof.
  intros Hnone. cbn zeta.
  assert ((collect_all_imports env directory w).1 = ∅) as HS.
  { rewrite collect_imports. apply set_eq. intros x.
    rewrite elem_of_union_list, elem_of_empty. split; [| done].
    intros (X & HX & Hx). apply list_elem_of_fmap in HX as (f & -> & Hf).
    rewrite (Hnone f Hf) in Hx. by apply elem_of_empty in Hx. }
  pose proof (collect_world env directory w) as [_ Hi]. cbn zeta in Hi.
  split; [| split].
  - rewrite run_unfold. cbn zeta. rewrite decide_True by done.
    cbn [print stdout]. rewrite collect_stdout. by rewrite <- !app_assoc.
  - by rewrite run_calls, (missing_packages_of_no_imports _ _ _ HS), app_nil_r.
  - rewrite run_unfold. cbn zeta. by rewrite decide_True by done.
Qed.

Lemma run_without_imports_witness :
  find_python_files
    (with_walk SampleLocal.broken_only (Sample.env Sample.online))
    "/work/vision"
  = ["/work/vision/broken.py"]
  ∧ stdout (install_missing_packages
              (with_walk SampleLocal.broken_only (Sample.env Sample.online))
              "/work/vision" Sample.w0)
    = stdout Sample.w0
      ++ ["[AutoPylot] Scanning 1 Python files for imports..."]
      ++ ["[AutoPylot] Error scanning /work/vision/broken.py: invalid syntax (broken.py, line 1)"]
      ++ [msg_no_imports]
  ∧ pip_calls (install_missing_packages
                 (with_walk SampleLocal.broken_only (Sample.env Sample.online))
                 "/work/vision" Sample.w0)
    = pip_calls Sample.w0.
Proof.
  split; [reflexivity |].
  refine (let H := run_without_imports
                     (with_walk SampleLocal.broken_only
                        (Sample.env Sample.online))
                     "/work/vision" Sample.w0 _ in
          conj (proj1 H) (proj1 (proj2 H))).
  intros f Hf.
  change (f ∈ ["/work/vision/broken.py"]) in Hf.
  apply list_elem_of_singleton in Hf. rewrite Hf. reflexivity.
Defined.

Lemma run_stdout_found (env : Env) (directory : string) (w : World) :
  (collect_all_imports env directory w).1 ≠ ∅ →
  stdout (install_missing_packages env directory w)
  = stdout (collect_all_imports env directory w).2
    ++ ["[AutoPylot] Found "
        +:+ pretty (size (collect_all_imports env directory w).1)
        +:+ " unique imports."]
    ++ match missing_packages_of env directory w with
       | [] => [msg_all_installed]
       | _ :: _ =>
           ["[AutoPylot] Found "
            +:+ pretty (length (missing_packages_of env directory w))
            +:+ " missing packages to install."]
           ++ concat (pip_report env <$> (missing_packages_of env directory w).*2)
           ++ [msg_complete]
       end.
Proof.
  intros HS. rewrite run_unfold. cbn zeta. rewrite decide_False by done.
  destruct (missing_packages_of env directory w) as [|pr l] eqn:E.
  - cbn [print stdout]. by rewrite <- app_assoc.
  - cbn [print stdout]. rewrite install_all_stdout. cbn [print stdout].
    by rewrite <- !app_assoc.
Qed.

(** X6: when imports were found, the run prints, after the lines of the
    collection, the number of distinct import names and then either the
    success line, or the number of missing packages, what the installer
    prints for each of them in order, and the completion line.  The number
    of missing packages printed is the number of installer invocations made
    and is at most the number of import names printed. *)
Theorem run_transcript (env : Env) (directory : string) (w : World) :
  (collect_all_imports env directory w).1 ≠ ∅ →
  let all_imports := (collect_all_imports env directory w).1 in
  let missing_packages := missing_packages_of env directory w in
  let w' := install_missing_packages env directory w in
  stdout w'
  = stdout (collect_all_imports env directory w).2
    ++ ["[AutoPylot] Found " +:+ pretty (size all_imports)
        +:+ " unique imports."]
    ++ match missing_packages with
       | [] => [msg_all_installed]
       | _ :: _ =>
           ["[AutoPylot] Found " +:+ pretty (length missing_packages)
            +:+ " missing packages to install."]
           ++ concat (pip_report env <$> missing_packages.*2)
           ++ [msg_complete]
       end
  ∧ length (pip_calls w') = length (pip_calls w) + length missing_packages
  ∧ length missing_packages ≤ size all_imports.
Proof.
  intros HS. cbn zeta. split; [| split].
  - by apply run_stdout_found.
  - by rewrite run_calls, length_app, length_fmap.
  - rewrite <- (length_fmap fst), missing_packages_of_eq, find_missing_names.
    etrans; [apply length_filter |]. done.
Qed.

Lemma run_transcript_witness :
  stdout (install_missing_packages (Sample.env Sample.offline) "/work/vision"
            Sample.w0)
  = [ "[AutoPylot] Scanning 3 Python files for imports...";
      "[AutoPylot] Error scanning /work/vision/broken.py: invalid syntax (broken.py, line 1)";
      "[AutoPylot] Found 6 unique imports.";
      "[AutoPylot] Found 2 missing packages to install.";
      "pip install opencv-python"; "pip install Pillow";
      msg_complete ]
  ∧ length (missing_packages_of (Sample.env Sample.offline) "/work/vision"
              Sample.w0)
    ≤ size (collect_all_imports (Sample.env Sample.offline) "/work/vision"
              Sample.w0).1.
Proof.
  split; [vm_compute; reflexivity |].
  refine (proj2 (proj2 (run_transcript (Sample.env Sample.offline)
                          "/work/vision" Sample.w0 _))).
  vm_compute. discriminate.
Defined.

(** ** [install_missing_packages]: what is installed *)

(** X7: an import name is in the missing list exactly when it was found in
    the project, is not an internal name, is not classified as standard
    library and does not resolve; for every such name the installer is
    invoked with its package name, so nothing that is needed is left out. *)
Theorem missing_complete (env : Env) (directory : string) (w : World)
    (m : string) :
  (m ∈ (missing_packages_of env directory w).*1
   ↔ m ∈ (collect_all_imports env directory w).1
     ∧ Py.mem m (internal_modules env directory) = false
     ∧ is_stdlib_module env m = false
     ∧ is_module_available m w = false)
  ∧ (m ∈ (collect_all_imports env directory w).1 →
     Py.mem m (internal_modules env directory) = false →
     is_stdlib_module env m = false →
     is_module_available m w = false →
     package_of (load_mappings env) m
       ∈ drop (length (pip_calls w))
           (pip_calls (install_missing_packages env directory w))).
Proof.
  assert (m ∈ (missing_packages_of env directory w).*1
          ↔ m ∈ (collect_all_imports env directory w).1
            ∧ Py.mem m (internal_modules env directory) = false
            ∧ is_stdlib_module env m = false
            ∧ is_module_available m w = false) as Hiff.
  { rewrite <- is_missing_true. split.
    - intros Hin. apply missing_pair_of_name in Hin.
      apply elem_of_missing_packages_of in Hin as (HS & Hm & _). done.
    - intros [HS Hm]. apply list_elem_of_fmap.
      exists (m, package_of (load_mappings env) m). split; [done |].
      by apply elem_of_missing_packages_of. }
  split; [done |]. intros HS Hint Hstd Hav.
  rewrite run_calls, drop_app_length.
  apply list_elem_of_fmap. exists (m, package_of (load_mappings env) m).
  split; [done |]. apply missing_pair_of_name. by apply Hiff.
Qed.

Lemma missing_complete_witness :
  "PIL" ∈ (missing_packages_of (Sample.env Sample.offline) "/work/vision"
             Sample.w0).*1
  ∧ "Pillow" ∈ drop (length (pip_calls Sample.w0))
                 (pip_calls (install_missing_packages
                               (Sample.env Sample.offline) "/work/vision"
                               Sample.w0)).
Proof.
  destruct (missing_complete (Sample.env Sample.offline) "/work/vision"
              Sample.w0 "PIL") as [Hiff Hcall].
  split.
  - apply Hiff. repeat split; vm_compute; reflexivity.
  - apply Hcall; vm_compute; reflexivity.
Defined.

(** X8: the installer is invoked once for each missing import name, not once
    for each package: two different missing import names that the mapping
    table sends to the same package give two invocations with that package
    name. *)
Theorem shared_package_installed_twice (env : Env) (directory : string)
    (w : World) (m1 m2 : string) :
  m1 ≠ m2 →
  m1 ∈ (missing_packages_of env directory w).*1 →
  m2 ∈ (missing_packages_of env directory w).*1 →
  package_of (load_mappings env) m1 = package_of (load_mappings env) m2 →
  ∃ i j, i ≠ j
         ∧ drop (length (pip_calls w))
             (pip_calls (install_missing_packages env directory w)) !! i
           = Some (package_of (load_mappings env) m1)
         ∧ drop (length (pip_calls w))
             (pip_calls (install_missing_packages env directory w)) !! j
           = Some (package_of (load_mappings env) m1).
Proof.
  intros Hne H1 H2 Hpkg.
  apply missing_pair_of_name, list_elem_of_lookup in H1 as [i Hi].
  apply missing_pair_of_name, list_elem_of_lookup in H2 as [j Hj].
  exists i, j. rewrite run_calls, drop_app_length, !list_lookup_fmap, Hi, Hj.
  simpl. rewrite Hpkg. split; [| done].
  intros ->. rewrite Hi in Hj. by injection Hj.
Qed.

Lemma shared_package_installed_twice_witness :
  package_of (load_mappings SampleLocal.env) "cv2" = "opencv-python"
  ∧ package_of (load_mappings SampleLocal.env) "PIL" = "opencv-python"
  ∧ pip_calls (install_missing_packages SampleLocal.env "/work/vision"
                 Sample.w0)
    = ["opencv-python"; "opencv-python"]
  ∧ ∃ i j, i ≠ j
           ∧ drop (length (pip_calls Sample.w0))
               (pip_calls (install_missing_packages SampleLocal.env
                             "/work/vision" Sample.w0)) !! i
             = Some (package_of (load_mappings SampleLocal.env) "cv2")
           ∧ drop (length (pip_calls Sample.w0))
               (pip_calls (install_missing_packages SampleLocal.env
                             "/work/vision" Sample.w0)) !! j
             = Some (package_of (load_mappings SampleLocal.env) "cv2").
Proof.
  split; [vm_compute; reflexivity |].
  split; [vm_compute; reflexivity |].
  split; [vm_compute; reflexivity |].
  apply (shared_package_installed_twice SampleLocal.env "/work/vision"
           Sample.w0 "cv2" "PIL").
  - discriminate.
  - vm_compute. apply list_elem_of_here.
  - vm_compute. apply list_elem_of_further, list_elem_of_here.
  - vm_compute; reflexivity.
Defined.

(** ** [is_stdlib_module]: the search path *)

Lemma found_is_stdlib (env : Env) (m path : string) :
  path ∈ sys_path env → found_on env m path = true →
  is_stdlib_module env m = true.
Proof.
  intros Hpath Hfound. unfold is_stdlib_module.
  destruct (Py.mem m (sys_builtin_module_names env)); [done |].
  assert (existsb (found_on env m) (sys_path env) = true) as ->; [| done].
  apply existsb_exists. exists path. by rewrite <- list_elem_of_In.
Qed.

(** X10: a name for which an entry [name] or [name.py] exists under a
    search-path entry that is not skipped is classified as standard library
    and is therefore never put in the missing list, although it may be
    neither a builtin, nor in the hardcoded list, nor importable.  With the
    empty search-path entry the path that is probed is the bare [name] or
    [name.py], relative to the current directory. *)
Theorem search_path_hit_never_missing (env : Env) (directory : string)
    (w : World) (m path : string) :
  path ∈ sys_path env →
  third_party_dir path = false →
  os_path_exists env (Py.os_path_join path m) = true
  ∨ os_path_exists env (Py.os_path_join path (m +:+ ".py")) = true →
  is_stdlib_module env m = true
  ∧ (m ∉ (missing_packages_of env directory w).*1)
  ∧ (path = "" →
     os_path_exists env m = true ∨ os_path_exists env (m +:+ ".py") = true).
Proof.
  intros Hpath Htp Hex.
  assert (is_stdlib_module env m = true) as Hstd.
  { apply (found_is_stdlib env m path Hpath). by apply found_on_true. }
  split; [done |]. split.
  - apply not_missing_name. unfold is_missing. rewrite Hstd.
    by rewrite orb_true_r.
  - intros ->. by rewrite !PathFacts.join_empty in Hex.
Qed.

Lemma search_path_hit_never_missing_witness :
  Py.mem "mymodule" stdlib_modules = false
  ∧ is_module_available "mymodule" Sample.w0 = false
  ∧ is_stdlib_module SampleLocal.env "mymodule" = true
  ∧ ("mymodule" ∉ (missing_packages_of SampleLocal.env "/work/proj"
                     Sample.w0).*1)
  ∧ pip_calls (install_missing_packages SampleLocal.env "/work/proj"
                 Sample.w0)
    = ["requests"].
Proof.
  split; [reflexivity |]. split; [vm_compute; reflexivity |].
  assert ("" ∈ sys_path SampleLocal.env) as Hpath by apply list_elem_of_here.
  destruct (search_path_hit_never_missing SampleLocal.env "/work/proj"
              Sample.w0 "mymodule" "" Hpath eq_refl (or_intror eq_refl))
    as (Hstd & Hno & _).
  split; [exact Hstd |]. split; [exact Hno |]. vm_compute; reflexivity.
Defined.

(** X11: the test that skips a search-path entry is a test on the end of its
    text: every path that ends in [site-packages] or [dist-packages] is
    skipped, whatever precedes, and no path written with a trailing
    separator is, so such an entry is searched like a standard-library
    directory. *)
Theorem third_party_is_suffix_test (p : string) :
  third_party_dir (p +:+ "site-packages") = true
  ∧ third_party_dir (p +:+ "dist-packages") = true
  ∧ third_party_dir (p +:+ "/") = false
  ∧ ∀ env m,
      p +:+ "/" ∈ sys_path env →
      os_path_exists env (Py.os_path_join (p +:+ "/") m) = true →
      is_stdlib_module env m = true.
Proof.
  assert (third_party_dir (p +:+ "/") = false) as Hslash.
  { unfold third_party_dir.
    assert (Py.endswith (p +:+ "/") "site-packages" = false) as ->
      by (refine (PathFacts.not_endswith_last p "site-package"
                    "/"%char "s"%char _); done).
    assert (Py.endswith (p +:+ "/") "dist-packages" = false) as ->
      by (refine (PathFacts.not_endswith_last p "dist-package"
                    "/"%char "s"%char _); done).
    done. }
  split; [| split; [| split; [done |]]].
  - apply third_party_dir_spec. left. by exists p.
  - apply third_party_dir_spec. right. by exists p.
  - intros env m Hpath Hex. apply (found_is_stdlib env m _ Hpath).
    apply found_on_true. split; [done | by left].
Qed.

(** ** The project name *)

(** X12: the project name is the last component of the absolute path of the
    directory: whatever the parent, the internal names are the four names
    of the tool and what [str.lower] makes of the last component. *)
Theorem internal_names_from_last_component (env : Env)
    (directory parent name m : string) :
  os_path_abspath env directory = parent +:+ String "/"%char name →
  Py.os_path_basename name = name →
  (Py.mem m (internal_modules env directory) = true
   ↔ m ∈ ["autopylot"; "AutoPylot"; "core"; "cli"] ∨ m = str_lower env name).
Proof.
  intros Habs Hname. rewrite internal_modules_spec, Habs.
  by rewrite PathFacts.basename_append, Hname.
Qed.

Lemma internal_names_from_last_component_witness :
  os_path_abspath (Sample.env Sample.online) "MyProj" = "/work/MyProj"
  ∧ (Py.mem "myproj" (internal_modules (Sample.env Sample.online) "MyProj")
     = true
     ↔ "myproj" ∈ ["autopylot"; "AutoPylot"; "core"; "cli"]
       ∨ "myproj" = str_lower (Sample.env Sample.online) "MyProj").
Proof.
  split; [reflexivity |].
  apply (internal_names_from_last_component (Sample.env Sample.online)
           "MyProj" "/work" "MyProj" "myproj"); reflexivity.
Defined.

(** ** [main] *)

Lemma print_lines (lines : list string) (w : World) :
  let w' := foldl (λ w line, print line w) w lines in
  stdout w' = stdout w ++ lines
  ∧ pip_calls w' = pip_calls w
  ∧ importable w' = importable w.
Proof.
  cbn zeta. revert w. induction lines as [|l lines IH]; intros w; simpl.
  - by rewrite app_nil_r.
  - destruct (IH (print l w)) as (-> & -> & ->). simpl.
    by rewrite <- app_assoc.
Qed.

Lemma missing_packages_of_world (env : Env) (directory : string) (w w' : World) :
  importable w = importable w' →
  missing_packages_of env directory w = missing_packages_of env directory w'.
Proof.
  intros Hi. rewrite !missing_packages_of_eq.
  rewrite (collect_imports_world env directory w w').
  by apply find_missing_world.
Qed.

(** X13: with the subcommand [install] or its alias [i], [main] prints the
    absolute path of the directory and runs the orchestrator on it, so the
    installer is invoked for the packages missing under that path, and the
    two spellings give the same run; with no subcommand it prints the help
    and neither scans nor installs anything. *)
Theorem main_dispatch (env : Env) (help : list string) (args : Namespace)
    (w : World) :
  let directory := os_path_abspath env (dir args) in
  ((command args = Some Install ∨ command args = Some InstallAlias) →
   pip_calls (main env help args w)
   = pip_calls w ++ (missing_packages_of env directory w).*2
   ∧ (∃ rest, stdout (main env help args w)
              = stdout w ++ ("[AutoPylot] Scanning directory: " +:+ directory)
                            :: rest)
   ∧ main env help {| command := Some Install; dir := dir args |} w
     = main env help {| command := Some InstallAlias; dir := dir args |} w)
  ∧ (command args = None →
     stdout (main env help args w) = stdout w ++ help
     ∧ pip_calls (main env help args w) = pip_calls w
     ∧ importable (main env help args w) = importable w).
Proof.
  cbn zeta. split.
  - intros Hcmd.
    assert (is_install args = true) as Hin
      by (unfold is_install; by destruct Hcmd as [-> | ->]).
    unfold main. rewrite Hin. cbn zeta. split; [| split; [| done]].
    + rewrite run_calls. cbn [print pip_calls]. do 2 f_equal.
      by apply missing_packages_of_world.
    + set (d := os_path_abspath env (dir args)).
      set (w1 := print ("[AutoPylot] Scanning directory: " +:+ d) w).
      destruct (decide ((collect_all_imports env d w1).1 = ∅)) as [HS | HS].
      * rewrite run_unfold. cbn zeta. rewrite decide_True by done.
        cbn [print stdout]. rewrite collect_stdout. cbn [print stdout w1].
        eexists. rewrite <- !app_assoc. simpl. reflexivity.
      * rewrite (run_stdout_found env d w1 HS).
        rewrite collect_stdout. cbn [print stdout w1].
        eexists. rewrite <- !app_assoc. simpl. reflexivity.
  - intros Hnone.
    assert (is_install args = false) as Hin
      by (unfold is_install; by rewrite Hnone).
    unfold main. rewrite Hin. apply print_lines.
Qed.

Lemma main_dispatch_witness :
  pip_calls (main (Sample.env Sample.offline)
               ["usage: autopylot [-h] {install,i} ..."]
               {| command := Some InstallAlias; dir := "vision" |} Sample.w0)
  = ["opencv-python"; "Pillow"]
  ∧ stdout (main (Sample.env Sample.offline)
              ["usage: autopylot [-h] {install,i} ..."]
              {| command := None; dir := "." |} Sample.w0)
    = ["usage: autopylot [-h] {install,i} ..."]
  ∧ pip_calls (main (Sample.env Sample.offline)
                 ["usage: autopylot [-h] {install,i} ..."]
                 {| command := None; dir := "." |} Sample.w0)
    = pip_calls Sample.w0.
Proof.
  split.
  - destruct (main_dispatch (Sample.env Sample.offline)
                ["usage: autopylot [-h] {install,i} ..."]
                {| command := Some InstallAlias; dir := "vision" |} Sample.w0)
      as [Hrun _].
    destruct Hrun as (Hcalls & _ & _); [by right |].
    rewrite Hcalls. vm_compute; reflexivity.
  - destruct (main_dispatch (Sample.env Sample.offline)
                ["usage: autopylot [-h] {install,i} ..."]
                {| command := None; dir := "." |} Sample.w0)
      as [_ Hhelp].
    destruct Hhelp as (Hout & Hcalls & _); [reflexivity |].
    split; [exact Hout | exact Hcalls].
Defined.
